(** * OptimizedController: the memoised field adapter

    A shallow embedding of [src/OptimizedController.tsx].  The component is

      function OptimizedController(props) {
        const { render } = props;
        const { field } = useController(props);
        const { value, disabled } = field;
        return useMemo(() => render(field), [value, disabled, render]);
      }

    It runs in a JavaScript world: values with identity, a heap that other code
    mutates between two renders, callbacks that may throw, and one memo cell
    that React keeps for the component between renders. *)

From stdpp Require Import base gmap strings list.

Set Default Proof Using "Type".

(** ** JavaScript values *)

(** A heap address: the identity of an object or of a function. *)
Definition loc := positive.

(** Numbers, up to what [Object.is] can tell apart: [NaN] is one value, [-0]
    is not [+0] (which is [Num 0]); every other number used here is an
    integer. *)
Inductive JsNumber :=
  | NaN
  | NegZero
  | Num (z : Z).

Inductive JsValue :=
  | VUndefined
  | VNull
  | VBool (b : bool)
  | VNumber (n : JsNumber)
  | VString (s : string)
  | VObject (l : loc).

(** ECMAScript SameValue on numbers. *)
Definition SameValueNumber (x y : JsNumber) : bool :=
  match x, y with
  | NaN, NaN => true
  | NegZero, NegZero => true
  | Num a, Num b => Z.eqb a b
  | _, _ => false
  end.

(** [Object.is(x, y)]: primitives by value, objects and functions by
    reference; the contents of the heap play no part. *)
Definition Object_is (x y : JsValue) : bool :=
  match x, y with
  | VUndefined, VUndefined => true
  | VNull, VNull => true
  | VBool a, VBool b => Bool.eqb a b
  | VNumber a, VNumber b => SameValueNumber a b
  | VString a, VString b => String.eqb a b
  | VObject a, VObject b => Pos.eqb a b
  | _, _ => false
  end.

(** An object is a finite map from property names to values, the heap a finite
    map from addresses to objects. *)
Definition Heap := gmap loc (gmap string JsValue).

(** ** Code that runs in the heap *)

(** What a call completes with: a value, or a thrown exception. *)
Inductive Completion (A : Type) :=
  | Normal (a : A)
  | Throw (exn : JsValue).
Arguments Normal {A} a.
Arguments Throw {A} exn.

(** Library and user code: reads and writes the heap, returns or throws. *)
Definition JS (A : Type) : Type := Heap -> Completion A * Heap.

(** An event handler or ref callback: a function object with its identity. *)
Record Callback := {
  cb_id : loc;
  cb_call : JsValue -> JS unit;
}.

(** A React element is an object; the component hands references around. *)
Definition ReactElement := loc.

(** Modelled from the spec: [ControllerRenderProps], the type of the [field]
    that [useController] returns, is declared by the form library.  The minimal
    field view has the change handler, the blur handler, the current value, the
    disabled flag (optional in the library's type), the field name and the ref
    binding. *)
Record ControllerRenderProps := {
  onChange : Callback;
  onBlur : Callback;
  value : JsValue;
  disabled : option bool;
  name : string;
  ref : Callback;
}.

(** Modelled from the spec: [ControllerFieldState], the form library's record
    of the attributes the component does not read (touched, dirty, validation
    error). *)
Record ControllerFieldState := {
  invalid : bool;
  isTouched : bool;
  isDirty : bool;
  isValidating : bool;
  error : option string;
}.

(** Modelled from the spec: what the form library's [useController] returns;
    [formState] is a reference to the provider's own object. *)
Record UseControllerReturn := {
  field : ControllerRenderProps;
  fieldState : ControllerFieldState;
  formState : JsValue;
}.

(** The [render] prop: a function from the field view to an element. *)
Record RenderFn := {
  fn_id : loc;
  fn_call : ControllerRenderProps -> JS ReactElement;
}.

(** Modelled from the spec: [ControllerProps] without its [render] is declared
    by the form library; its members are the provider handle, the field name
    and the registration options, forwarded opaquely. *)
Record ControllerProps := {
  control : JsValue;
  fieldName : string;
  rules : JsValue;
}.

(** [OptimizedControllerProps]: [Omit<ControllerProps, 'render'>] and the
    narrowed [render], which takes the field alone. *)
Record OptimizedControllerProps := {
  controllerProps : ControllerProps;
  render : RenderFn;
}.

(** ** The component's monad *)

(** One recorded invocation of a render function. *)
Record Call := {
  call_fn : RenderFn;
  call_arg : ControllerRenderProps;
}.

Definition Trace := list Call.

(** The memo cell React keeps for the component's [useMemo]: nothing before the
    first render, afterwards the memoised element and its dependency array. *)
Definition MemoCell := option (ReactElement * list JsValue).

Record World := {
  hook : MemoCell;
  heap : Heap;
}.

(** A render pass: reads and writes the world, records the render functions it
    invokes, returns or throws. *)
Definition M (A : Type) : Type := World -> Trace * Completion A * World.

Definition ret {A} (a : A) : M A := fun w => ([], Normal a, w).

Definition bind {A B} (m : M A) (k : A -> M B) : M B := fun w =>
  match m w with
  | (t1, Normal a, w1) =>
      match k a w1 with
      | (t2, r, w2) => (t1 ++ t2, r, w2)
      end
  | (t1, Throw e, w1) => (t1, Throw e, w1)
  end.

Declare Scope js_scope.
Delimit Scope js_scope with js.
Notation "x <- m ;; k" := (bind m (fun x => k))
  (at level 100, m at next level, right associativity) : js_scope.
Notation "m ;;; k" := (bind m (fun _ => k))
  (at level 100, right associativity) : js_scope.
Open Scope js_scope.

(** Running foreign code: its heap effects are kept, nothing is recorded. *)
Definition liftJS {A} (c : JS A) : M A := fun w =>
  match c (heap w) with
  | (r, h) => ([], r, {| hook := hook w; heap := h |})
  end.

(** Calling a render function: the call is recorded, then its body runs. *)
Definition invoke (f : RenderFn) (arg : ControllerRenderProps) : M ReactElement := fun w =>
  match fn_call f arg (heap w) with
  | (r, h) => ([{| call_fn := f; call_arg := arg |}], r, {| hook := hook w; heap := h |})
  end.

Definition getHook : M MemoCell := fun w => ([], Normal (hook w), w).

Definition setHook (c : MemoCell) : M unit := fun w =>
  ([], Normal tt, {| hook := c; heap := heap w |}).

(** ** React's [useMemo] *)

(** Modelled from the spec: React's comparison of two dependency arrays, used
    by [useMemo]: [Object.is] position by position (identity for objects,
    equality for primitives), over the positions both arrays have. *)
Fixpoint areHookInputsEqual (nextDeps prevDeps : list JsValue) : bool :=
  match nextDeps, prevDeps with
  | x :: nextDeps', y :: prevDeps' =>
      if Object_is x y then areHookInputsEqual nextDeps' prevDeps' else false
  | _, _ => true
  end.

(** Modelled from the spec: [useMemo] is React's, not this repository's.  On the
    first render it calls [nextCreate] and stores the result with the
    dependencies; on a later render it returns the stored result when the
    dependencies compare equal to the stored ones, and otherwise calls
    [nextCreate] and stores the new result with the new dependencies. *)
Definition useMemo (nextCreate : M ReactElement) (deps : list JsValue) : M ReactElement :=
  let recompute :=
    nextValue <- nextCreate ;;
    setHook (Some (nextValue, deps)) ;;;
    ret nextValue in
  prevState <- getHook ;;
  match prevState with
  | Some (prevValue, prevDeps) =>
      if areHookInputsEqual deps prevDeps then ret prevValue else recompute
  | None => recompute
  end.

(** The value a destructured optional boolean has. *)
Definition optBool (b : option bool) : JsValue :=
  match b with
  | Some b => VBool b
  | None => VUndefined
  end.

(** A function used as a dependency is compared by its identity. *)
Definition fnValue (f : RenderFn) : JsValue := VObject (fn_id f).

Section Component.

(** The provider's binding hook, called with the whole props object. *)
Variable useController : OptimizedControllerProps -> JS UseControllerReturn.

(** The dependency array [[value, disabled, render]]. *)
Definition memoDeps (render : RenderFn) (field : ControllerRenderProps) : list JsValue :=
  [value field; optBool (disabled field); fnValue render].

Definition OptimizedController (props : OptimizedControllerProps) : M ReactElement :=
  let render := render props in
  ctl <- liftJS (useController props) ;;
  let field := field ctl in
  useMemo (invoke render field) (memoDeps render field).

End Component.

(** ** Renders in sequence *)

(** The cells React can hold for this component: empty, or an element with a
    dependency array of three entries. *)
Definition hook_wf (c : MemoCell) : Prop :=
  match c with
  | None => True
  | Some (_, deps) => length deps = 3
  end.

Section Sequences.

Variable useController : OptimizedControllerProps -> JS UseControllerReturn.

(** [previous_render w p0 ctl0 node0]: the render before the one that starts
    in [w] was given props [p0], got [ctl0] from the provider and returned
    [node0]; React kept its memo cell, the heap may have changed since. *)
Definition previous_render (w : World) (p0 : OptimizedControllerProps)
    (ctl0 : UseControllerReturn) (node0 : ReactElement) : Prop :=
  exists (w0 : World) (h0 : Heap) (t0 : Trace) (w0' : World),
    hook_wf (hook w0) /\
    useController p0 (heap w0) = (Normal ctl0, h0) /\
    OptimizedController useController p0 w0 = (t0, Normal node0, w0') /\
    hook w = hook w0'.

(** A frame is one render: the props given and the heap found.  [run] renders
    the frames in order, threading the memo cell, and collects the render
    calls; a render that throws ends the run (React unmounts the
    component). *)
Fixpoint run (c : MemoCell) (frames : list (OptimizedControllerProps * Heap)) : Trace :=
  match frames with
  | [] => []
  | (p, h) :: rest =>
      match OptimizedController useController p {| hook := c; heap := h |} with
      | (t, Normal _, w') => t ++ run (hook w') rest
      | (t, Throw _, _) => t
      end
  end.

(** In frame [(p, h)] the provider answers with the pair [(v, d)]. *)
Definition pair_at (v d : JsValue) (frame : OptimizedControllerProps * Heap) : Prop :=
  exists ctl h',
    useController (fst frame) (snd frame) = (Normal ctl, h') /\
    Object_is (value (field ctl)) v = true /\
    Object_is (optBool (disabled (field ctl))) d = true.

(** Every frame gets the same render function. *)
Definition render_at (rid : loc) (frame : OptimizedControllerProps * Heap) : Prop :=
  fn_id (render (fst frame)) = rid.

End Sequences.

(** ** What a run is expected to call *)

#[global] Instance JsNumber_eq_dec : EqDecision JsNumber.
Proof. solve_decision. Defined.

#[global] Instance JsValue_eq_dec : EqDecision JsValue.
Proof. solve_decision. Defined.

(** The calls a sequence of (render prop, field) pairs deserves: one for every
    pair whose triple [[value, disabled, render]] is not the triple before it;
    [prev] is the triple before the first pair, if any. *)
Fixpoint changes (prev : option (list JsValue)) (xs : list (RenderFn * ControllerRenderProps)) : Trace :=
  match xs with
  | [] => []
  | (r, f) :: rest =>
      (if decide (prev = Some (memoDeps r f)) then []
       else [{| call_fn := r; call_arg := f |}])
      ++ changes (Some (memoDeps r f)) rest
  end.

(** The elements a sequence of (render prop, field, element the render prop
    returns on that field) deserves: the element of the entry where the triple
    is not the triple before it, and the element shown before where it is. *)
Fixpoint shown (prev : MemoCell) (xs : list (RenderFn * ControllerRenderProps * ReactElement))
    : list ReactElement :=
  match xs with
  | [] => []
  | (r, f, node) :: rest =>
      match prev with
      | Some (prevNode, prevDeps) =>
          if decide (prevDeps = memoDeps r f) then prevNode :: shown prev rest
          else node :: shown (Some (node, memoDeps r f)) rest
      | None => node :: shown (Some (node, memoDeps r f)) rest
      end
  end.

Section Runs.

Variable useController : OptimizedControllerProps -> JS UseControllerReturn.

(** The call each frame could give rise to: the frame's render prop on the
    field the provider returns there; none where the binding call throws. *)
Definition offered (frames : list (OptimizedControllerProps * Heap)) : Trace :=
  omap (fun frame =>
          match useController (fst frame) (snd frame) with
          | (Normal ctl, _) => Some {| call_fn := render (fst frame); call_arg := field ctl |}
          | (Throw _, _) => None
          end) frames.

(** In [frame] the binding call returns the field, the render prop applied to
    that field on the heap the binding call left returns the element: [x] is
    the render prop, the field and the element. *)
Definition yields (frame : OptimizedControllerProps * Heap)
    (x : RenderFn * ControllerRenderProps * ReactElement) : Prop :=
  exists ctl h' h'',
    useController (fst frame) (snd frame) = (Normal ctl, h') /\
    fst x = (render (fst frame), field ctl) /\
    fn_call (render (fst frame)) (field ctl) h' = (Normal (snd x), h'').

(** What the renders of a run complete with, frame by frame; like [run], it
    ends at the render that throws. *)
Fixpoint outputs (c : MemoCell) (frames : list (OptimizedControllerProps * Heap))
    : list (Completion ReactElement) :=
  match frames with
  | [] => []
  | (p, h) :: rest =>
      match OptimizedController useController p {| hook := c; heap := h |} with
      | (_, Normal node, w') => Normal node :: outputs (hook w') rest
      | (_, Throw e, _) => [Throw e]
      end
  end.

End Runs.

(** ** A small provider to run the component on

    One form object in the heap holds the field's attributes; the binding hook
    reads it through the [control] prop and throws when there is none. *)
Module Demo.

Definition form : loc := 1%positive.
Definition onChangeId : loc := 2%positive.
Definition onBlurId : loc := 3%positive.
Definition refId : loc := 4%positive.

(** Writes property [k] of the object at [l]. *)
Definition setProp (l : loc) (k : string) (v : JsValue) (h : Heap) : Heap :=
  <[l := <[k := v]> (default ∅ (h !! l))]> h.

Definition getProp (l : loc) (k : string) (h : Heap) : JsValue :=
  default VUndefined (default ∅ (h !! l) !! k).

Definition onChangeOf (l : loc) : Callback :=
  {| cb_id := onChangeId;
     cb_call := fun v h => (Normal tt, setProp l "isDirty" (VBool true) (setProp l "value" v h)) |}.

Definition onBlurOf (l : loc) : Callback :=
  {| cb_id := onBlurId;
     cb_call := fun _ h => (Normal tt, setProp l "isTouched" (VBool true) h) |}.

Definition refOf (l : loc) : Callback :=
  {| cb_id := refId;
     cb_call := fun el h => (Normal tt, setProp l "ref" el h) |}.

Definition asBool (v : JsValue) : bool :=
  match v with
  | VBool b => b
  | _ => false
  end.

Definition asOptBool (v : JsValue) : option bool :=
  match v with
  | VBool b => Some b
  | _ => None
  end.

Definition asOptString (v : JsValue) : option string :=
  match v with
  | VString s => Some s
  | _ => None
  end.

(** The live binding of the field [nm] of the form at [l]. *)
Definition binding (l : loc) (nm : string) (h : Heap) : UseControllerReturn :=
  {| field :=
       {| onChange := onChangeOf l;
          onBlur := onBlurOf l;
          value := getProp l "value" h;
          disabled := asOptBool (getProp l "disabled" h);
          name := nm;
          ref := refOf l |};
     fieldState :=
       {| invalid := asBool (getProp l "invalid" h);
          isTouched := asBool (getProp l "isTouched" h);
          isDirty := asBool (getProp l "isDirty" h);
          isValidating := false;
          error := asOptString (getProp l "error" h) |};
     formState := VObject l |}.

Definition useController (props : OptimizedControllerProps) : JS UseControllerReturn :=
  fun h =>
    match control (controllerProps props) with
    | VObject l =>
        match h !! l with
        | Some _ => (Normal (binding l (fieldName (controllerProps props)) h), h)
        | None => (Throw (VString "no form at control"), h)
        end
    | _ => (Throw (VString "control is missing"), h)
    end.

(** A render function as JSX compiles it: every call allocates a new element
    object holding the props it was given. *)
Definition input (id : loc) : RenderFn :=
  {| fn_id := id;
     fn_call := fun f h =>
       let el := fresh (dom h) in
       (Normal el,
        <[el := {[ "type" := VString "input";
                   "name" := VString (name f);
                   "value" := value f;
                   "disabled" := optBool (disabled f) ]}]> h) |}.

(** A render function that throws. *)
Definition broken (id : loc) : RenderFn :=
  {| fn_id := id;
     fn_call := fun _ h => (Throw (VString "render failed"), h) |}.

Definition props (r : RenderFn) : OptimizedControllerProps :=
  {| controllerProps := {| control := VObject form; fieldName := "test"; rules := VUndefined |};
     render := r |}.

(** The heap with the form's field at value [v], [disabled] at [d] and the
    touched flag at [touched]. *)
Definition formHeap (v : JsValue) (d : bool) (touched : bool) : Heap :=
  {[ form := {[ "value" := v; "disabled" := VBool d; "isTouched" := VBool touched ]} ]}.

Definition Pass : Type := Trace * Completion ReactElement * World.

(** The world of the next render: the memo cell the last render left, and
    the heap it left as [change] has altered it since. *)
Definition after (r : Pass) (change : Heap -> Heap) : World :=
  {| hook := hook (snd r); heap := change (heap (snd r)) |}.

Definition update (p : OptimizedControllerProps) (w : World) : Pass :=
  OptimizedController useController p w.

(** What a pass shows from outside: the identity of each render function
    called with the pair it was given, and the completion. *)
Definition calls (r : Pass) : list (loc * JsValue * option bool) :=
  map (fun c => (fn_id (call_fn c), value (call_arg c), disabled (call_arg c))) (fst (fst r)).

Definition result (r : Pass) : Completion ReactElement := snd (fst r).

(** The provider's notifications of the spec's scenario. *)
Definition touch : Heap -> Heap := setProp form "isTouched" (VBool true).
Definition enter (s : string) : Heap -> Heap := setProp form "value" (VString s).
Definition disable : Heap -> Heap := setProp form "disabled" (VBool true).

Definition p10 : OptimizedControllerProps := props (input 10%positive).
Definition p11 : OptimizedControllerProps := props (input 11%positive).
Definition h0 : Heap := formHeap (VString "") false false.

Definition invalidate : Heap -> Heap := setProp form "error" (VString "Required").

(** What the provider returns for the field in world [w]. *)
Definition bound (w : World) : UseControllerReturn := binding form "test" (heap w).

(** Scenario: first render, touched, typed, disabled, with one render prop. *)
Definition w0 : World := {| hook := None; heap := h0 |}.
Definition s0 : Pass := update p10 w0.
Definition w1 : World := after s0 touch.
Definition s1 : Pass := update p10 w1.
Definition w2 : World := after s1 (enter "abc").
Definition s2 : Pass := update p10 w2.
Definition w3 : World := after s2 disable.
Definition s3 : Pass := update p10 w3.

(** The same first notification, but the parent re-rendered too and passed a
    new inline render function. *)
Definition s1' : Pass := update p11 w1.

(** A validation error arrives while the parent passes a new function. *)
Definition w1e : World := after s0 invalidate.
Definition s1e : Pass := update p11 w1e.

(** A field whose value is an object, and a write into that object. *)
Definition address : loc := 5%positive.
Definition hObj : Heap :=
  <[address := {[ "city" := VString "Oslo" ]}]> (formHeap (VObject address) false false).
Definition move : Heap -> Heap := setProp address "city" (VString "Rome").
Definition wObj0 : World := {| hook := None; heap := hObj |}.
Definition o0 : Pass := update p10 wObj0.
Definition wObj1 : World := after o0 move.
Definition o1 : Pass := update p10 wObj1.

(** Frames with one pair throughout: first with one render prop, then with
    a parent that passes a new inline function on the second render. *)
Definition steady : list (OptimizedControllerProps * Heap) :=
  [(p10, h0); (p10, touch h0); (p10, touch h0)].
Definition restless : list (OptimizedControllerProps * Heap) :=
  [(p10, h0); (p11, touch h0)].

(** Props without a form, and props whose render function throws. *)
Definition orphan : OptimizedControllerProps :=
  {| controllerProps := {| control := VUndefined; fieldName := "test"; rules := VUndefined |};
     render := input 10%positive |}.
Definition p12 : OptimizedControllerProps := props (broken 12%positive).

(** The same provider reporting another field state and form state. *)
Definition useControllerInvalid (props : OptimizedControllerProps) : JS UseControllerReturn :=
  fun h =>
    match useController props h with
    | (Normal ctl, h') =>
        (Normal
           {| field := field ctl;
              fieldState :=
                {| invalid := true; isTouched := true; isDirty := true;
                   isValidating := true; error := Some "Required" |};
              formState := VNull |}, h')
    | (Throw e, h') => (Throw e, h')
    end.

(** The same form and render prop, bound under another field name. *)
Definition pOther : OptimizedControllerProps :=
  {| controllerProps := {| control := VObject form; fieldName := "other"; rules := VUndefined |};
     render := input 10%positive |}.

(** Five frames, each on the heap the render before it left: first render,
    touched, typed, a new render prop, disabled. *)
Definition s2' : Pass := update p11 (after s2 (fun h => h)).
Definition w3' : World := after s2' disable.
Definition story : list (OptimizedControllerProps * Heap) :=
  [(p10, h0); (p10, heap w1); (p10, heap w2); (p11, heap (snd s2)); (p10, heap w3')].

(** What each frame holds for an [input] render prop: the prop, the field
    bound on the frame's heap, and the element [input] allocates there. *)
Definition told (frames : list (OptimizedControllerProps * Heap))
    : list (RenderFn * ControllerRenderProps * ReactElement) :=
  map (fun frame => (render (fst frame), field (binding form "test" (snd frame)),
                     fresh (dom (snd frame)))) frames.

(** A form whose field has no disabled flag. *)
Definition hBare : Heap := {[ form := {[ "value" := VString "" ]} ]}.
Definition wBare : World := {| hook := None; heap := hBare |}.

End Demo.


(** * Properties *)

(** ** [Object.is] and the dependency comparison *)

Lemma SameValueNumber_eq (x y : JsNumber) : SameValueNumber x y = true <-> x = y.
Proof.
  destruct x, y; simpl; try (split; congruence).
  rewrite Z.eqb_eq. split; congruence.
Qed.

Lemma Object_is_eq (x y : JsValue) : Object_is x y = true <-> x = y.
Proof.
  destruct x, y; simpl; try (split; congruence).
  - rewrite Bool.eqb_true_iff. split; congruence.
  - rewrite SameValueNumber_eq. split; congruence.
  - rewrite String.eqb_eq. split; congruence.
  - rewrite Pos.eqb_eq. split; congruence.
Qed.

Lemma Object_is_refl (x : JsValue) : Object_is x x = true.
Proof. by apply Object_is_eq. Qed.

Lemma Object_is_neq (x y : JsValue) : Object_is x y = false <-> x <> y.
Proof.
  rewrite <- Object_is_eq. destruct (Object_is x y); split; congruence.
Qed.

Lemma areHookInputsEqual_eq (a b : list JsValue) :
  length a = length b -> areHookInputsEqual a b = true <-> a = b.
Proof.
  revert b. induction a as [|x a IH]; intros [|y b] Hlen; simpl in *; try discriminate.
  - split; congruence.
  - destruct (Object_is x y) eqn:E.
    + apply Object_is_eq in E. subst y. rewrite IH by lia. split; congruence.
    + apply Object_is_neq in E. split; [discriminate | congruence].
Qed.

Lemma optBool_inj (a b : option bool) : optBool a = optBool b -> a = b.
Proof. destruct a, b; simpl; congruence. Qed.

Lemma memoDeps_length (r : RenderFn) (f : ControllerRenderProps) : length (memoDeps r f) = 3.
Proof. reflexivity. Qed.

(** The dependency arrays of two renders compare equal exactly when the value,
    the disabled flag and the render function all pass [Object.is]. *)
Lemma memoDeps_equal (r r0 : RenderFn) (f f0 : ControllerRenderProps) :
  areHookInputsEqual (memoDeps r f) (memoDeps r0 f0) =
  Object_is (value f) (value f0)
  && Object_is (optBool (disabled f)) (optBool (disabled f0))
  && Pos.eqb (fn_id r) (fn_id r0).
Proof.
  unfold memoDeps, fnValue. simpl.
  destruct (Object_is (value f) (value f0)); [|reflexivity].
  destruct (Object_is (optBool (disabled f)) (optBool (disabled f0))); [|reflexivity].
  simpl. by destruct (Pos.eqb (fn_id r) (fn_id r0)).
Qed.

(** ** [useMemo] unfolded *)

Lemma bind_ret_l {A B} (a : A) (k : A -> M B) (w : World) : bind (ret a) k w = k a w.
Proof. unfold bind, ret. by destruct (k a w) as [[t r] w']. Qed.

Lemma useMemo_eq (nextCreate : M ReactElement) (deps : list JsValue) (w : World) :
  useMemo nextCreate deps w =
  match hook w with
  | Some (prevValue, prevDeps) =>
      if areHookInputsEqual deps prevDeps then ([], Normal prevValue, w)
      else bind nextCreate
             (fun nextValue => bind (setHook (Some (nextValue, deps))) (fun _ => ret nextValue)) w
  | None =>
      bind nextCreate
        (fun nextValue => bind (setHook (Some (nextValue, deps))) (fun _ => ret nextValue)) w
  end.
Proof.
  unfold useMemo.
  change (bind getHook ?k w) with (bind (ret (hook w)) k w).
  rewrite bind_ret_l.
  destruct (hook w) as [[prevValue prevDeps]|]; [|reflexivity].
  destruct (areHookInputsEqual deps prevDeps); reflexivity.
Qed.

(** ** One render pass *)

Section Pass.

Variable useController : OptimizedControllerProps -> JS UseControllerReturn.

Local Abbreviation OC := (OptimizedController useController).

(** What a pass that recomputes does: one recorded call of [render] with the
    field; its element is stored with the new dependencies, its exception
    leaves the memo cell alone. *)
Lemma recompute_eq (r : RenderFn) (f : ControllerRenderProps) (deps : list JsValue) (w : World) :
  bind (invoke r f) (fun nextValue => bind (setHook (Some (nextValue, deps))) (fun _ => ret nextValue)) w =
  match fn_call r f (heap w) with
  | (Normal node, h') =>
      ([{| call_fn := r; call_arg := f |}], Normal node, {| hook := Some (node, deps); heap := h' |})
  | (Throw e, h') =>
      ([{| call_fn := r; call_arg := f |}], Throw e, {| hook := hook w; heap := h' |})
  end.
Proof.
  unfold bind, invoke, setHook, ret.
  destruct (fn_call r f (heap w)) as [[node|e] h']; reflexivity.
Qed.

(** The provider's binding call throws: so does the pass, at once. *)
Lemma pass_throw (p : OptimizedControllerProps) (w : World) (e : JsValue) (h : Heap) :
  useController p (heap w) = (Throw e, h) ->
  OC p w = ([], Throw e, {| hook := hook w; heap := h |}).
Proof.
  intros Huc. unfold OptimizedController, bind, liftJS. by rewrite Huc.
Qed.

(** The binding call returns: the pass is [useMemo] on the world it left. *)
Lemma pass_bound (p : OptimizedControllerProps) (w : World) (ctl : UseControllerReturn) (h : Heap) :
  useController p (heap w) = (Normal ctl, h) ->
  OC p w =
  useMemo (invoke (render p) (field ctl)) (memoDeps (render p) (field ctl))
    {| hook := hook w; heap := h |}.
Proof.
  intros Huc. unfold OptimizedController. unfold bind at 1. unfold liftJS. rewrite Huc.
  destruct (useMemo _ _ _) as [[t r] w']. reflexivity.
Qed.

(** The stored dependencies compare equal: the stored element, no call. *)
Lemma pass_hit (p : OptimizedControllerProps) (w : World) (ctl : UseControllerReturn) (h : Heap)
    (prevValue : ReactElement) (prevDeps : list JsValue) :
  useController p (heap w) = (Normal ctl, h) ->
  hook w = Some (prevValue, prevDeps) ->
  areHookInputsEqual (memoDeps (render p) (field ctl)) prevDeps = true ->
  OC p w = ([], Normal prevValue, {| hook := hook w; heap := h |}).
Proof.
  intros Huc Hhook Heq. rewrite (pass_bound _ _ _ _ Huc), useMemo_eq.
  cbn [hook]. rewrite Hhook, Heq. reflexivity.
Qed.

(** They differ, or there are none yet: [render] is called once. *)
Lemma pass_miss (p : OptimizedControllerProps) (w : World) (ctl : UseControllerReturn) (h : Heap) :
  useController p (heap w) = (Normal ctl, h) ->
  match hook w with
  | Some (_, prevDeps) => areHookInputsEqual (memoDeps (render p) (field ctl)) prevDeps = false
  | None => True
  end ->
  OC p w =
  match fn_call (render p) (field ctl) h with
  | (Normal node, h') =>
      ([{| call_fn := render p; call_arg := field ctl |}], Normal node,
       {| hook := Some (node, memoDeps (render p) (field ctl)); heap := h' |})
  | (Throw e, h') =>
      ([{| call_fn := render p; call_arg := field ctl |}], Throw e,
       {| hook := hook w; heap := h' |})
  end.
Proof.
  intros Huc Hhook. rewrite (pass_bound _ _ _ _ Huc), useMemo_eq.
  cbn [hook]. destruct (hook w) as [[prevValue prevDeps]|].
  - rewrite Hhook. apply recompute_eq.
  - apply recompute_eq.
Qed.

End Pass.

(** ** Two renders in a row *)

Section Renders.

Variable useController : OptimizedControllerProps -> JS UseControllerReturn.

Local Abbreviation OC := (OptimizedController useController).

(** After a render that returned, the memo cell holds the returned element
    and the dependencies of that render. *)
Lemma previous_hook (w : World) (p0 : OptimizedControllerProps)
    (ctl0 : UseControllerReturn) (node0 : ReactElement) :
  previous_render useController w p0 ctl0 node0 ->
  hook w = Some (node0, memoDeps (render p0) (field ctl0)).
Proof.
  intros (w0 & h0 & t0 & w0' & Hwf & Huc & Hoc & ->).
  destruct (hook w0) as [[pv pd]|] eqn:Hw0.
  - destruct (areHookInputsEqual (memoDeps (render p0) (field ctl0)) pd) eqn:Heq.
    + rewrite (pass_hit _ _ _ _ _ _ _ Huc Hw0 Heq) in Hoc.
      inversion Hoc; subst; clear Hoc. cbn [hook]. rewrite Hw0.
      apply areHookInputsEqual_eq in Heq; [by rewrite Heq|].
      rewrite memoDeps_length. symmetry. exact Hwf.
    + rewrite (pass_miss _ _ _ _ _ Huc) in Hoc by (by rewrite Hw0).
      destruct (fn_call (render p0) (field ctl0) h0) as [[node|e] h'];
        inversion Hoc; subst; reflexivity.
  - rewrite (pass_miss _ _ _ _ _ Huc) in Hoc by (by rewrite Hw0).
    destruct (fn_call (render p0) (field ctl0) h0) as [[node|e] h'];
      inversion Hoc; subst; reflexivity.
Qed.

Lemma previous_render_intro (w w0 : World) (p0 : OptimizedControllerProps)
    (ctl0 : UseControllerReturn) (h0 : Heap) (node0 : ReactElement) :
  hook_wf (hook w0) ->
  useController p0 (heap w0) = (Normal ctl0, h0) ->
  snd (fst (OC p0 w0)) = Normal node0 ->
  hook w = hook (snd (OC p0 w0)) ->
  previous_render useController w p0 ctl0 node0.
Proof.
  intros Hwf Huc Hres Hhook.
  exists w0, h0, (fst (fst (OC p0 w0))), (snd (OC p0 w0)).
  repeat split; try done.
  destruct (OC p0 w0) as [[t res] w']. simpl in *. by subst.
Defined.

(** Same pair, same render function: the previous element, no call. *)
Lemma unchanged_hit (w : World) (p0 p : OptimizedControllerProps)
    (ctl0 ctl : UseControllerReturn) (node0 : ReactElement) (h : Heap) :
  previous_render useController w p0 ctl0 node0 ->
  useController p (heap w) = (Normal ctl, h) ->
  Object_is (value (field ctl)) (value (field ctl0)) = true ->
  Object_is (optBool (disabled (field ctl))) (optBool (disabled (field ctl0))) = true ->
  fn_id (render p) = fn_id (render p0) ->
  OC p w = ([], Normal node0, {| hook := hook w; heap := h |}).
Proof.
  intros Hprev Huc Hv Hd Hr.
  apply (pass_hit _ _ _ _ _ _ _ Huc (previous_hook _ _ _ _ Hprev)).
  rewrite memoDeps_equal, Hv, Hd, Hr, Pos.eqb_refl. reflexivity.
Qed.

(** Any of the three differs: [render] runs once, on the new field. *)
Lemma changed_miss (w : World) (p0 p : OptimizedControllerProps)
    (ctl0 ctl : UseControllerReturn) (node0 : ReactElement) (h : Heap) :
  previous_render useController w p0 ctl0 node0 ->
  useController p (heap w) = (Normal ctl, h) ->
  Object_is (value (field ctl)) (value (field ctl0)) = false \/
  Object_is (optBool (disabled (field ctl))) (optBool (disabled (field ctl0))) = false \/
  fn_id (render p) <> fn_id (render p0) ->
  OC p w =
  match fn_call (render p) (field ctl) h with
  | (Normal node, h') =>
      ([{| call_fn := render p; call_arg := field ctl |}], Normal node,
       {| hook := Some (node, memoDeps (render p) (field ctl)); heap := h' |})
  | (Throw e, h') =>
      ([{| call_fn := render p; call_arg := field ctl |}], Throw e,
       {| hook := hook w; heap := h' |})
  end.
Proof.
  intros Hprev Huc Hne.
  apply (pass_miss _ _ _ _ _ Huc). rewrite (previous_hook _ _ _ _ Hprev).
  rewrite memoDeps_equal.
  destruct Hne as [-> | [-> | Hr]]; [reflexivity | by rewrite andb_false_r |].
  apply Pos.eqb_neq in Hr. rewrite Hr. by rewrite andb_false_r.
Qed.

(** A pass whose binding call returned either reuses the stored element
    without a call, or calls [render] once with the provider's field. *)
Lemma pass_cases (p : OptimizedControllerProps) (w : World) (ctl : UseControllerReturn) (h : Heap) :
  useController p (heap w) = (Normal ctl, h) ->
  (exists prevValue, OC p w = ([], Normal prevValue, {| hook := hook w; heap := h |})) \/
  OC p w =
  match fn_call (render p) (field ctl) h with
  | (Normal node, h') =>
      ([{| call_fn := render p; call_arg := field ctl |}], Normal node,
       {| hook := Some (node, memoDeps (render p) (field ctl)); heap := h' |})
  | (Throw e, h') =>
      ([{| call_fn := render p; call_arg := field ctl |}], Throw e,
       {| hook := hook w; heap := h' |})
  end.
Proof.
  intros Huc.
  destruct (hook w) as [[pv pd]|] eqn:Hw.
  - destruct (areHookInputsEqual (memoDeps (render p) (field ctl)) pd) eqn:Heq.
    + left. exists pv. rewrite <- Hw. exact (pass_hit _ _ _ _ _ _ pd Huc Hw Heq).
    + right. rewrite <- Hw. apply (pass_miss _ _ _ _ _ Huc). by rewrite Hw.
  - right. rewrite <- Hw. apply (pass_miss _ _ _ _ _ Huc). by rewrite Hw.
Qed.

(** Every recorded call of a pass is a call of the [render] prop with the
    field the provider returned in that pass. *)
Lemma pass_calls (p : OptimizedControllerProps) (w : World) (c : Call) :
  In c (fst (fst (OC p w))) ->
  exists ctl h,
    useController p (heap w) = (Normal ctl, h) /\
    c = {| call_fn := render p; call_arg := field ctl |}.
Proof.
  intros Hin.
  destruct (useController p (heap w)) as [[ctl|e] h] eqn:Huc.
  - exists ctl, h. split; [reflexivity|].
    destruct (pass_cases _ _ _ _ Huc) as [[pv Hoc] | Hoc]; rewrite Hoc in Hin.
    + destruct Hin.
    + destruct (fn_call (render p) (field ctl) h) as [[node|e] h'];
        simpl in Hin; destruct Hin as [<- | []]; reflexivity.
  - rewrite (pass_throw _ _ _ _ _ Huc) in Hin. destruct Hin.
Qed.

(** Once the cell holds the dependencies that every frame produces, no frame
    calls [render]. *)
Lemma run_settled (v d : JsValue) (rid : loc) (node : ReactElement)
    (frames : list (OptimizedControllerProps * Heap)) :
  Forall (pair_at useController v d) frames ->
  Forall (render_at rid) frames ->
  run useController (Some (node, [v; d; VObject rid])) frames = [].
Proof.
  induction frames as [|[p h] rest IH]; intros Hp Hr; [reflexivity|].
  inversion Hp as [|? ? (ctl & h' & Huc & Hv & Hd) Hp']; subst.
  inversion Hr as [|? ? Hrid Hr']; subst.
  unfold render_at in Hrid. simpl in Huc, Hrid. subst rid. cbn [run].
  rewrite (pass_hit useController p {| hook := Some (node, [v; d; VObject (fn_id (render p))]); heap := h |}
             ctl h' node [v; d; VObject (fn_id (render p))] Huc eq_refl).
  - cbn [hook]. by apply IH.
  - unfold memoDeps, fnValue. cbn [areHookInputsEqual].
    by rewrite Hv, Hd, Object_is_refl.
Qed.

End Renders.

(** ** The component's contract *)

Section Contract.

Variable useController : OptimizedControllerProps -> JS UseControllerReturn.

Local Abbreviation OC := (OptimizedController useController).

(** C1 (amended, the render prop is compared too): on a notification, the
    adapter takes [value] and [disabled] from the provider's field and
    compares them with the previous pair by [Object.is].  If the pair and the
    identity of the render prop are unchanged, it returns the previous
    element and calls nothing; if the pair changed, it calls [render] once
    with the new field and stores the element it returns as the new previous
    output (an exception of [render] passes through and stores nothing).  An
    object value with the same reference counts as unchanged, whatever the
    heap now holds at that reference. *)
Theorem notification_compare_and_memoise
    (w : World) (p0 p : OptimizedControllerProps)
    (ctl0 ctl : UseControllerReturn) (node0 : ReactElement) (h : Heap) :
  previous_render useController w p0 ctl0 node0 ->
  useController p (heap w) = (Normal ctl, h) ->
  (Object_is (value (field ctl)) (value (field ctl0)) = true ->
   Object_is (optBool (disabled (field ctl))) (optBool (disabled (field ctl0))) = true ->
   fn_id (render p) = fn_id (render p0) ->
   OC p w = ([], Normal node0, {| hook := hook w; heap := h |}))
  /\
  (Object_is (value (field ctl)) (value (field ctl0)) = false \/
   Object_is (optBool (disabled (field ctl))) (optBool (disabled (field ctl0))) = false ->
   OC p w =
   match fn_call (render p) (field ctl) h with
   | (Normal node, h') =>
       ([{| call_fn := render p; call_arg := field ctl |}], Normal node,
        {| hook := Some (node, memoDeps (render p) (field ctl)); heap := h' |})
   | (Throw e, h') =>
       ([{| call_fn := render p; call_arg := field ctl |}], Throw e,
        {| hook := hook w; heap := h' |})
   end)
  /\
  (forall l : loc,
     value (field ctl0) = VObject l ->
     value (field ctl) = VObject l ->
     disabled (field ctl) = disabled (field ctl0) ->
     fn_id (render p) = fn_id (render p0) ->
     OC p w = ([], Normal node0, {| hook := hook w; heap := h |})).
Proof.
  intros Hprev Huc. split; [|split].
  - intros Hv Hd Hr. by apply (unchanged_hit _ _ p0 _ ctl0 ctl).
  - intros Hne. apply (changed_miss _ _ p0 _ ctl0 ctl node0); [done..|].
    destruct Hne as [Hv | Hd]; [by left | by right; left].
  - intros l Hv0 Hv Hd Hr.
    apply (unchanged_hit _ _ p0 _ ctl0 ctl); [done..| | | done].
    + rewrite Hv, Hv0. apply Object_is_refl.
    + rewrite Hd. apply Object_is_refl.
Qed.

(** C2 (amended, for one render prop): over any sequence of renders in which the
    provider answers with the same (value, disabled) pair in every frame and
    the render prop keeps its identity, the render function is called at most
    once in all; starting from the mount, exactly once. *)
Theorem steady_pair_at_most_one_call
    (v d : JsValue) (rid : loc) (c : MemoCell)
    (frames : list (OptimizedControllerProps * Heap)) :
  hook_wf c ->
  Forall (pair_at useController v d) frames ->
  Forall (render_at rid) frames ->
  length (run useController c frames) <= 1 /\
  (c = None -> frames <> [] -> length (run useController c frames) = 1).
Proof.
  intros Hwf Hp Hr.
  destruct frames as [|[p h] rest]; [split; [simpl; lia | congruence]|].
  inversion Hp as [|? ? (ctl & h' & Huc & Hv & Hd) Hp']; subst.
  inversion Hr as [|? ? Hrid Hr']; subst.
  unfold render_at in Hrid. simpl in Huc, Hrid. subst rid.
  apply Object_is_eq in Hv, Hd.
  assert (Hdeps : memoDeps (render p) (field ctl) = [v; d; VObject (fn_id (render p))]).
  { unfold memoDeps, fnValue. by rewrite Hv, Hd. }
  cbn [run].
  assert (Hmiss : forall w,
            OC p w =
            match fn_call (render p) (field ctl) h' with
            | (Normal node, h'') =>
                ([{| call_fn := render p; call_arg := field ctl |}], Normal node,
                 {| hook := Some (node, memoDeps (render p) (field ctl)); heap := h'' |})
            | (Throw e, h'') =>
                ([{| call_fn := render p; call_arg := field ctl |}], Throw e,
                 {| hook := hook w; heap := h'' |})
            end ->
            length (let '(t, r, w') := OC p w in
                    match r with
                    | Normal _ => t ++ run useController (hook w') rest
                    | Throw _ => t
                    end) = 1).
  { intros w ->.
    destruct (fn_call (render p) (field ctl) h') as [[node|e] h'']; [|reflexivity].
    cbn [hook]. rewrite Hdeps, run_settled by done. reflexivity. }
  destruct c as [[pv pd]|].
  - destruct (areHookInputsEqual (memoDeps (render p) (field ctl)) pd) eqn:Heq.
    + rewrite (pass_hit useController p {| hook := Some (pv, pd); heap := h |}
                 ctl h' pv pd Huc eq_refl Heq).
      cbn [hook]. apply areHookInputsEqual_eq in Heq; [|by rewrite memoDeps_length].
      rewrite <- Heq, Hdeps, run_settled by done. split; [simpl; lia | congruence].
    + split; [|congruence].
      match goal with |- length ?x <= 1 => cut (length x = 1); [lia|] end.
      apply (Hmiss {| hook := Some (pv, pd); heap := h |}).
      by apply (pass_miss useController p {| hook := Some (pv, pd); heap := h |} ctl h' Huc).
  - match goal with |- length ?x <= 1 /\ _ => cut (length x = 1); [intros ->; split; [lia|done]|] end.
    apply (Hmiss {| hook := None; heap := h |}).
    by apply (pass_miss useController p {| hook := None; heap := h |} ctl h' Huc).
Qed.

(** C3: on an update in which [value] changed, whatever [disabled] does, the
    render function is called exactly once, applied to the field that carries
    the new value, and what it returns or throws is what the pass returns or
    throws; and likewise on an update in which [disabled] changed, whatever
    [value] does. *)
Theorem changed_pair_one_call
    (w : World) (p0 p : OptimizedControllerProps)
    (ctl0 ctl : UseControllerReturn) (node0 : ReactElement) (h : Heap) :
  previous_render useController w p0 ctl0 node0 ->
  useController p (heap w) = (Normal ctl, h) ->
  (Object_is (value (field ctl)) (value (field ctl0)) = false ->
   fst (fst (OC p w)) = [{| call_fn := render p; call_arg := field ctl |}] /\
   OC p w =
   match fn_call (render p) (field ctl) h with
   | (Normal node, h') =>
       ([{| call_fn := render p; call_arg := field ctl |}], Normal node,
        {| hook := Some (node, memoDeps (render p) (field ctl)); heap := h' |})
   | (Throw e, h') =>
       ([{| call_fn := render p; call_arg := field ctl |}], Throw e,
        {| hook := hook w; heap := h' |})
   end)
  /\
  (Object_is (optBool (disabled (field ctl))) (optBool (disabled (field ctl0))) = false ->
   fst (fst (OC p w)) = [{| call_fn := render p; call_arg := field ctl |}] /\
   OC p w =
   match fn_call (render p) (field ctl) h with
   | (Normal node, h') =>
       ([{| call_fn := render p; call_arg := field ctl |}], Normal node,
        {| hook := Some (node, memoDeps (render p) (field ctl)); heap := h' |})
   | (Throw e, h') =>
       ([{| call_fn := render p; call_arg := field ctl |}], Throw e,
        {| hook := hook w; heap := h' |})
   end).
Proof.
  intros Hprev Huc.
  split; intros Hne.
  - pose proof (changed_miss _ _ p0 _ ctl0 ctl node0 h Hprev Huc (or_introl Hne)) as Hoc.
    split; [|exact Hoc]. rewrite Hoc.
    by destruct (fn_call (render p) (field ctl) h) as [[node|e] h'].
  - pose proof (changed_miss _ _ p0 _ ctl0 ctl node0 h Hprev Huc (or_intror (or_introl Hne))) as Hoc.
    split; [|exact Hoc]. rewrite Hoc.
    by destruct (fn_call (render p) (field ctl) h) as [[node|e] h'].
Qed.

(** C4 (amended, for one render prop): on an update in which [value] and [disabled]
    are unchanged and the render prop is the same function, whatever the
    provider reports as field state and form state (touched, dirty,
    validation error), the render function is not called and the element
    returned is the previous one. *)
Theorem other_attributes_no_call
    (w : World) (p0 p : OptimizedControllerProps)
    (ctl0 ctl : UseControllerReturn) (node0 : ReactElement) (h : Heap) :
  previous_render useController w p0 ctl0 node0 ->
  useController p (heap w) = (Normal ctl, h) ->
  Object_is (value (field ctl)) (value (field ctl0)) = true ->
  Object_is (optBool (disabled (field ctl))) (optBool (disabled (field ctl0))) = true ->
  fn_id (render p) = fn_id (render p0) ->
  fst (fst (OC p w)) = [] /\ snd (fst (OC p w)) = Normal node0.
Proof.
  intros Hprev Huc Hv Hd Hr.
  by rewrite (unchanged_hit _ _ p0 _ ctl0 ctl node0 h Hprev Huc Hv Hd Hr).
Qed.

(** C5 (amended, for one render prop): across two consecutive renders in which neither
    [value] nor [disabled] changed and the render prop kept its identity,
    the second render returns the very element the first returned, and
    leaves the memo cell as it found it. *)
Theorem output_referentially_stable
    (w : World) (p0 p : OptimizedControllerProps)
    (ctl0 ctl : UseControllerReturn) (node0 : ReactElement) (h : Heap) :
  previous_render useController w p0 ctl0 node0 ->
  useController p (heap w) = (Normal ctl, h) ->
  Object_is (value (field ctl)) (value (field ctl0)) = true ->
  Object_is (optBool (disabled (field ctl))) (optBool (disabled (field ctl0))) = true ->
  fn_id (render p) = fn_id (render p0) ->
  exists (t : Trace) (w' : World),
    OC p w = (t, Normal node0, w') /\
    hook w' = hook w /\
    hook w' = Some (node0, memoDeps (render p) (field ctl)).
Proof.
  intros Hprev Huc Hv Hd Hr.
  exists [], {| hook := hook w; heap := h |}.
  split; [by apply (unchanged_hit _ _ p0 _ ctl0 ctl)|].
  split; [reflexivity|]. cbn [hook].
  rewrite (previous_hook _ _ _ _ _ Hprev).
  apply Object_is_eq in Hv, Hd. unfold memoDeps, fnValue. by rewrite Hv, Hd, Hr.
Qed.

(** C6: the render function is itself a dependency.  On an update in which
    [value] and [disabled] are unchanged, a render prop of another identity
    is called, once, and the element it returns is the output and the new
    memoised element; with a render prop of the same identity nothing is
    called and the previous element is returned.  So suppression and
    referential stability hold exactly when the render prop is stable. *)
Theorem render_identity_is_dependency
    (w : World) (p0 p : OptimizedControllerProps)
    (ctl0 ctl : UseControllerReturn) (node0 : ReactElement) (h : Heap) :
  previous_render useController w p0 ctl0 node0 ->
  useController p (heap w) = (Normal ctl, h) ->
  Object_is (value (field ctl)) (value (field ctl0)) = true ->
  Object_is (optBool (disabled (field ctl))) (optBool (disabled (field ctl0))) = true ->
  (fn_id (render p) <> fn_id (render p0) ->
   OC p w =
   match fn_call (render p) (field ctl) h with
   | (Normal node, h') =>
       ([{| call_fn := render p; call_arg := field ctl |}], Normal node,
        {| hook := Some (node, memoDeps (render p) (field ctl)); heap := h' |})
   | (Throw e, h') =>
       ([{| call_fn := render p; call_arg := field ctl |}], Throw e,
        {| hook := hook w; heap := h' |})
   end)
  /\
  (fn_id (render p) = fn_id (render p0) ->
   OC p w = ([], Normal node0, {| hook := hook w; heap := h |})).
Proof.
  intros Hprev Huc Hv Hd. split; intros Hr.
  - apply (changed_miss _ _ p0 _ ctl0 ctl node0); [done..|]. by right; right.
  - by apply (unchanged_hit _ _ p0 _ ctl0 ctl).
Qed.

(** C7 (amended, the disabled flag as the provider has it): whenever the
    render function is called, it is applied to the very field the provider's
    binding returned in that pass, and what it returns or throws on that field
    is what the pass returns or throws.  The view so has the provider's change
    handler, blur handler, current value, field name and ref binding, and the
    disabled flag exactly when the provider's field has one. *)
Theorem render_receives_field_view
    (p : OptimizedControllerProps) (w : World) (c : Call) :
  In c (fst (fst (OC p w))) ->
  exists (ctl : UseControllerReturn) (h : Heap),
    useController p (heap w) = (Normal ctl, h) /\
    call_fn c = render p /\
    OC p w =
    match fn_call (render p) (call_arg c) h with
    | (Normal node, h') =>
        ([c], Normal node, {| hook := Some (node, memoDeps (render p) (field ctl)); heap := h' |})
    | (Throw e, h') =>
        ([c], Throw e, {| hook := hook w; heap := h' |})
    end /\
    call_arg c = field ctl /\
    onChange (call_arg c) = onChange (field ctl) /\
    onBlur (call_arg c) = onBlur (field ctl) /\
    value (call_arg c) = value (field ctl) /\
    disabled (call_arg c) = disabled (field ctl) /\
    (forall b : bool, disabled (field ctl) = Some b -> disabled (call_arg c) = Some b) /\
    name (call_arg c) = name (field ctl) /\
    ref (call_arg c) = ref (field ctl).
Proof.
  intros Hin. destruct (pass_calls _ _ _ _ Hin) as (ctl & h & Huc & ->).
  exists ctl, h. cbn [call_fn call_arg]. repeat split; try done.
  destruct (pass_cases _ _ _ _ _ Huc) as [[pv Hoc] | Hoc].
  - rewrite Hoc in Hin. destruct Hin.
  - exact Hoc.
Qed.

(** C8: the change handler in the view the render function receives is the
    provider's own [onChange], the same function object: calling it with a
    value on any heap does what the provider's handler does there, that
    once, and nothing else; and the pass itself leaves the heap as the
    binding call and the render function left it. *)
Theorem onChange_passed_through
    (p : OptimizedControllerProps) (w : World) (c : Call) :
  In c (fst (fst (OC p w))) ->
  exists (ctl : UseControllerReturn) (h : Heap),
    useController p (heap w) = (Normal ctl, h) /\
    onChange (call_arg c) = onChange (field ctl) /\
    (forall (v : JsValue) (h1 : Heap),
       cb_call (onChange (call_arg c)) v h1 = cb_call (onChange (field ctl)) v h1) /\
    heap (snd (OC p w)) = snd (fn_call (render p) (field ctl) h).
Proof.
  intros Hin. destruct (pass_calls _ _ _ _ Hin) as (ctl & h & Huc & ->).
  exists ctl, h. repeat split; try done.
  destruct (pass_cases _ _ _ _ _ Huc) as [[pv Hoc] | Hoc]; rewrite Hoc in Hin |- *.
  - destruct Hin.
  - by destruct (fn_call (render p) (field ctl) h) as [[node|e] h'].
Qed.

(** C10: the adapter has no failure of its own.  When the provider's
    binding call throws, the pass throws that same exception, calls nothing
    and leaves the memo cell alone; and whenever a pass throws, the
    exception is the one the binding call threw or, the binding call having
    returned, the one the caller's render function threw. *)
Theorem provider_failure_propagates
    (p : OptimizedControllerProps) (w : World) :
  (forall (e : JsValue) (h : Heap),
     useController p (heap w) = (Throw e, h) ->
     OC p w = ([], Throw e, {| hook := hook w; heap := h |}))
  /\
  (forall (t : Trace) (e : JsValue) (w' : World),
     OC p w = (t, Throw e, w') ->
     hook w' = hook w /\
     (useController p (heap w) = (Throw e, heap w') \/
      exists (ctl : UseControllerReturn) (h : Heap),
        useController p (heap w) = (Normal ctl, h) /\
        fn_call (render p) (field ctl) h = (Throw e, heap w'))).
Proof.
  split.
  - intros e h Huc. by apply pass_throw.
  - intros t e w' Hoc.
    destruct (useController p (heap w)) as [[ctl|e0] h] eqn:Huc.
    + destruct (pass_cases _ _ _ _ _ Huc) as [[pv Hhit] | Hmiss].
      * rewrite Hhit in Hoc. discriminate.
      * rewrite Hmiss in Hoc.
        destruct (fn_call (render p) (field ctl) h) as [[node|e1] h'] eqn:Hcall;
          inversion Hoc; subst; clear Hoc.
        split; [reflexivity|]. right. exists ctl, h. by split.
    + rewrite (pass_throw _ _ _ _ _ Huc) in Hoc. inversion Hoc; subst; clear Hoc.
      split; [reflexivity|]. by left.
Qed.

End Contract.

(** C9: the adapter reads nothing of what the provider returns but [field].
    Two providers that return the same field, with whatever field state
    (touched, dirty, validation error) and form state each, give the same
    pass: the same calls with the same arguments, the same completion, the
    same world; and the argument of every call is that field, no more. *)
Theorem fieldState_formState_not_observed
    (useController useController' : OptimizedControllerProps -> JS UseControllerReturn)
    (p : OptimizedControllerProps) (w : World)
    (ctl ctl' : UseControllerReturn) (h : Heap) :
  useController p (heap w) = (Normal ctl, h) ->
  useController' p (heap w) = (Normal ctl', h) ->
  field ctl' = field ctl ->
  OptimizedController useController' p w = OptimizedController useController p w /\
  (forall c : Call, In c (fst (fst (OptimizedController useController' p w))) ->
     call_arg c = field ctl).
Proof.
  intros Huc Huc' Hfield.
  assert (Heq : OptimizedController useController' p w = OptimizedController useController p w).
  { rewrite (pass_bound _ _ _ _ _ Huc), (pass_bound _ _ _ _ _ Huc'). by rewrite Hfield. }
  split; [exact Heq|].
  intros c Hin. rewrite Heq in Hin.
  destruct (pass_calls _ _ _ _ Hin) as (ctl1 & h1 & Huc1 & ->).
  rewrite Huc in Huc1. by inversion Huc1.
Qed.

(** * The component on concrete inputs *)

(** The scenario of the spec: mounted with value [""] and [disabled] false,
    the render function is called once; a touched flag calls nothing; value
    ["abc"] calls it once; [disabled] true calls it once. *)
Example spec_scenario :
  Demo.calls Demo.s0 = [(10%positive, VString "", Some false)] /\
  Demo.calls Demo.s1 = [] /\
  Demo.calls Demo.s2 = [(10%positive, VString "abc", Some false)] /\
  Demo.calls Demo.s3 = [(10%positive, VString "abc", Some true)] /\
  Demo.result Demo.s1 = Demo.result Demo.s0.
Proof. vm_compute. by repeat split. Qed.

Lemma demo_bound (r : RenderFn) (w : World) (o : gmap string JsValue) :
  heap w !! Demo.form = Some o ->
  Demo.useController (Demo.props r) (heap w) = (Normal (Demo.bound w), heap w).
Proof.
  intros Ho. unfold Demo.useController. cbn [control controllerProps Demo.props]. by rewrite Ho.
Defined.

Lemma demo_previous (r : RenderFn) (w0 w : World) (node : ReactElement) (o : gmap string JsValue) :
  hook_wf (hook w0) ->
  heap w0 !! Demo.form = Some o ->
  Demo.result (Demo.update (Demo.props r) w0) = Normal node ->
  hook w = hook (snd (Demo.update (Demo.props r) w0)) ->
  previous_render Demo.useController w (Demo.props r) (Demo.bound w0) node.
Proof.
  intros Hwf Ho Hres Hhook.
  exact (previous_render_intro Demo.useController w w0 (Demo.props r) (Demo.bound w0) (heap w0) node
           Hwf (demo_bound r w0 o Ho) Hres Hhook).
Defined.

(** C1, witness: the field's value is an object; between two renders a write
    changes the object in place.  Same reference, same render prop: the
    previous element, no call. *)
Lemma notification_compare_and_memoise_witness :
  previous_render Demo.useController Demo.wObj1 Demo.p10 (Demo.bound Demo.wObj0) 6%positive /\
  Demo.getProp Demo.address "city" (heap Demo.wObj0) = VString "Oslo" /\
  Demo.getProp Demo.address "city" (heap Demo.wObj1) = VString "Rome" /\
  OptimizedController Demo.useController Demo.p10 Demo.wObj1 = ([], Normal 6%positive, Demo.wObj1).
Proof.
  assert (Hprev : previous_render Demo.useController Demo.wObj1 Demo.p10 (Demo.bound Demo.wObj0) 6%positive).
  { eapply (demo_previous _ Demo.wObj0); [exact I | reflexivity | reflexivity | reflexivity]. }
  assert (Huc : Demo.useController Demo.p10 (heap Demo.wObj1) = (Normal (Demo.bound Demo.wObj1), heap Demo.wObj1)).
  { eapply demo_bound. reflexivity. }
  refine (conj Hprev (conj eq_refl (conj eq_refl _))).
  eapply (proj2 (proj2 (notification_compare_and_memoise Demo.useController
            Demo.wObj1 Demo.p10 Demo.p10 (Demo.bound Demo.wObj0) (Demo.bound Demo.wObj1)
            6%positive (heap Demo.wObj1) Hprev Huc)) Demo.address);
    reflexivity.
Defined.

(** C1 as stated fails: the provider reports the field touched, the pair is
    unchanged, but the parent passed a new render function; the adapter calls
    it and returns a new element instead of the previous one. *)
Lemma unchanged_pair_new_render_recomputes :
  previous_render Demo.useController Demo.w1 Demo.p10 (Demo.bound Demo.w0) 2%positive /\
  Demo.useController Demo.p11 (heap Demo.w1) = (Normal (Demo.bound Demo.w1), heap Demo.w1) /\
  Object_is (value (field (Demo.bound Demo.w1))) (value (field (Demo.bound Demo.w0))) = true /\
  Object_is (optBool (disabled (field (Demo.bound Demo.w1))))
            (optBool (disabled (field (Demo.bound Demo.w0)))) = true /\
  Demo.calls (OptimizedController Demo.useController Demo.p11 Demo.w1) =
    [(11%positive, VString "", Some false)] /\
  Demo.result (OptimizedController Demo.useController Demo.p11 Demo.w1) = Normal 3%positive /\
  OptimizedController Demo.useController Demo.p11 Demo.w1 <> ([], Normal 2%positive, Demo.w1).
Proof.
  split.
  { eapply (demo_previous _ Demo.w0); [exact I | reflexivity | reflexivity | reflexivity]. }
  split; [eapply demo_bound; reflexivity|].
  repeat (split; [reflexivity|]).
  intros Heq. apply (f_equal Demo.result) in Heq. vm_compute in Heq. discriminate.
Qed.

(** C2, witness: three frames with the pair [("", false)] and one render prop,
    from the mount: one call in all. *)
Lemma steady_pair_at_most_one_call_witness :
  hook_wf None /\
  Forall (pair_at Demo.useController (VString "") (VBool false)) Demo.steady /\
  Forall (render_at 10%positive) Demo.steady /\
  length (run Demo.useController None Demo.steady) <= 1 /\
  length (run Demo.useController None Demo.steady) = 1.
Proof.
  assert (Hp : Forall (pair_at Demo.useController (VString "") (VBool false)) Demo.steady).
  { repeat constructor; eexists _, _; (split; [reflexivity|]); split; reflexivity. }
  assert (Hr : Forall (render_at 10%positive) Demo.steady).
  { repeat constructor. }
  destruct (steady_pair_at_most_one_call Demo.useController (VString "") (VBool false)
              10%positive None Demo.steady I Hp Hr) as [Hle Hone].
  refine (conj I (conj Hp (conj Hr (conj Hle (Hone eq_refl _))))).
  discriminate.
Defined.

(** C2 as stated fails: two frames with the pair [("", false)], the second
    with a new render function; the render function is called in both, twice
    in a row with an equal pair. *)
Lemma steady_pair_two_calls :
  hook_wf None /\
  Forall (pair_at Demo.useController (VString "") (VBool false)) Demo.restless /\
  map (fun c => (fn_id (call_fn c), value (call_arg c), disabled (call_arg c)))
      (run Demo.useController None Demo.restless) =
    [(10%positive, VString "", Some false); (11%positive, VString "", Some false)] /\
  ~ length (run Demo.useController None Demo.restless) <= 1.
Proof.
  split; [exact I|]. split.
  { repeat constructor; eexists _, _; (split; [reflexivity|]); split; reflexivity. }
  split; [reflexivity|].
  vm_compute. intros H. inversion H as [|? H']. inversion H'.
Qed.

(** C3, witness: the value goes from [""] to ["abc"] with [disabled] constant:
    one call, and the element the pass returns was built with ["abc"]; then
    [disabled] goes to true with the value constant: one call, and the
    element returned was built with the flag set. *)
Lemma changed_pair_one_call_witness :
  (previous_render Demo.useController Demo.w2 Demo.p10 (Demo.bound Demo.w1) 2%positive /\
   Object_is (value (field (Demo.bound Demo.w2))) (value (field (Demo.bound Demo.w1))) = false /\
   (fst (fst (OptimizedController Demo.useController Demo.p10 Demo.w2)) =
      [{| call_fn := render Demo.p10; call_arg := field (Demo.bound Demo.w2) |}] /\
    OptimizedController Demo.useController Demo.p10 Demo.w2 =
      match fn_call (render Demo.p10) (field (Demo.bound Demo.w2)) (heap Demo.w2) with
      | (Normal node, h') =>
          ([{| call_fn := render Demo.p10; call_arg := field (Demo.bound Demo.w2) |}], Normal node,
           {| hook := Some (node, memoDeps (render Demo.p10) (field (Demo.bound Demo.w2)));
              heap := h' |})
      | (Throw e, h') =>
          ([{| call_fn := render Demo.p10; call_arg := field (Demo.bound Demo.w2) |}], Throw e,
           {| hook := hook Demo.w2; heap := h' |})
      end) /\
   snd (fst (OptimizedController Demo.useController Demo.p10 Demo.w2)) = Normal 3%positive /\
   Demo.getProp 3%positive "value"
     (heap (snd (OptimizedController Demo.useController Demo.p10 Demo.w2))) = VString "abc") /\
  (previous_render Demo.useController Demo.w3 Demo.p10 (Demo.bound Demo.w2) 3%positive /\
   Object_is (optBool (disabled (field (Demo.bound Demo.w3))))
             (optBool (disabled (field (Demo.bound Demo.w2)))) = false /\
   (fst (fst (OptimizedController Demo.useController Demo.p10 Demo.w3)) =
      [{| call_fn := render Demo.p10; call_arg := field (Demo.bound Demo.w3) |}] /\
    OptimizedController Demo.useController Demo.p10 Demo.w3 =
      match fn_call (render Demo.p10) (field (Demo.bound Demo.w3)) (heap Demo.w3) with
      | (Normal node, h') =>
          ([{| call_fn := render Demo.p10; call_arg := field (Demo.bound Demo.w3) |}], Normal node,
           {| hook := Some (node, memoDeps (render Demo.p10) (field (Demo.bound Demo.w3)));
              heap := h' |})
      | (Throw e, h') =>
          ([{| call_fn := render Demo.p10; call_arg := field (Demo.bound Demo.w3) |}], Throw e,
           {| hook := hook Demo.w3; heap := h' |})
      end) /\
   snd (fst (OptimizedController Demo.useController Demo.p10 Demo.w3)) = Normal 4%positive /\
   Demo.getProp 4%positive "disabled"
     (heap (snd (OptimizedController Demo.useController Demo.p10 Demo.w3))) = VBool true).
Proof.
  assert (H2 : previous_render Demo.useController Demo.w2 Demo.p10 (Demo.bound Demo.w1) 2%positive).
  { eapply (demo_previous _ Demo.w1); [reflexivity | reflexivity | reflexivity | reflexivity]. }
  assert (H3 : previous_render Demo.useController Demo.w3 Demo.p10 (Demo.bound Demo.w2) 3%positive).
  { eapply (demo_previous _ Demo.w2); [reflexivity | reflexivity | reflexivity | reflexivity]. }
  assert (U2 : Demo.useController Demo.p10 (heap Demo.w2) = (Normal (Demo.bound Demo.w2), heap Demo.w2)).
  { eapply demo_bound; reflexivity. }
  assert (U3 : Demo.useController Demo.p10 (heap Demo.w3) = (Normal (Demo.bound Demo.w3), heap Demo.w3)).
  { eapply demo_bound; reflexivity. }
  split.
  - refine (conj H2 (conj eq_refl (conj _ (conj eq_refl eq_refl)))).
    exact (proj1 (changed_pair_one_call Demo.useController Demo.w2 Demo.p10 Demo.p10
                    (Demo.bound Demo.w1) (Demo.bound Demo.w2) 2%positive (heap Demo.w2) H2 U2) eq_refl).
  - refine (conj H3 (conj eq_refl (conj _ (conj eq_refl eq_refl)))).
    exact (proj2 (changed_pair_one_call Demo.useController Demo.w3 Demo.p10 Demo.p10
                    (Demo.bound Demo.w2) (Demo.bound Demo.w3) 3%positive (heap Demo.w3) H3 U3) eq_refl).
Defined.

(** C4, witness: only the touched flag changes, the render prop is the same:
    no call, the previous element. *)
Lemma other_attributes_no_call_witness :
  previous_render Demo.useController Demo.w1 Demo.p10 (Demo.bound Demo.w0) 2%positive /\
  isTouched (fieldState (Demo.bound Demo.w0)) = false /\
  isTouched (fieldState (Demo.bound Demo.w1)) = true /\
  fst (fst (OptimizedController Demo.useController Demo.p10 Demo.w1)) = [] /\
  snd (fst (OptimizedController Demo.useController Demo.p10 Demo.w1)) = Normal 2%positive.
Proof.
  assert (Hprev : previous_render Demo.useController Demo.w1 Demo.p10 (Demo.bound Demo.w0) 2%positive).
  { eapply (demo_previous _ Demo.w0); [exact I | reflexivity | reflexivity | reflexivity]. }
  assert (Huc : Demo.useController Demo.p10 (heap Demo.w1) = (Normal (Demo.bound Demo.w1), heap Demo.w1)).
  { eapply demo_bound; reflexivity. }
  refine (conj Hprev (conj eq_refl (conj eq_refl _))).
  exact (other_attributes_no_call Demo.useController Demo.w1 Demo.p10 Demo.p10
           (Demo.bound Demo.w0) (Demo.bound Demo.w1) 2%positive (heap Demo.w1)
           Hprev Huc eq_refl eq_refl eq_refl).
Defined.

(** C4 as stated fails: only the validation error changes in the field state,
    value and disabled are as before, but the parent passed a new render
    function: it is called. *)
Lemma error_update_new_render_calls :
  previous_render Demo.useController Demo.w1e Demo.p10 (Demo.bound Demo.w0) 2%positive /\
  Demo.useController Demo.p11 (heap Demo.w1e) = (Normal (Demo.bound Demo.w1e), heap Demo.w1e) /\
  field (Demo.bound Demo.w1e) = field (Demo.bound Demo.w0) /\
  error (fieldState (Demo.bound Demo.w0)) = None /\
  error (fieldState (Demo.bound Demo.w1e)) = Some "Required" /\
  fst (fst (OptimizedController Demo.useController Demo.p11 Demo.w1e)) =
    [{| call_fn := render Demo.p11; call_arg := field (Demo.bound Demo.w1e) |}] /\
  fst (fst (OptimizedController Demo.useController Demo.p11 Demo.w1e)) <> [].
Proof.
  split.
  { eapply (demo_previous _ Demo.w0); [exact I | reflexivity | reflexivity | reflexivity]. }
  split; [eapply demo_bound; reflexivity|].
  repeat (split; [reflexivity|]).
  discriminate.
Qed.

(** C5, witness: the render after the touched flag returns the element of the
    mount, and keeps the memo cell. *)
Lemma output_referentially_stable_witness :
  previous_render Demo.useController Demo.w1 Demo.p10 (Demo.bound Demo.w0) 2%positive /\
  exists (t : Trace) (w' : World),
    OptimizedController Demo.useController Demo.p10 Demo.w1 = (t, Normal 2%positive, w') /\
    hook w' = hook Demo.w1 /\
    hook w' = Some (2%positive, memoDeps (render Demo.p10) (field (Demo.bound Demo.w1))).
Proof.
  assert (Hprev : previous_render Demo.useController Demo.w1 Demo.p10 (Demo.bound Demo.w0) 2%positive).
  { eapply (demo_previous _ Demo.w0); [exact I | reflexivity | reflexivity | reflexivity]. }
  assert (Huc : Demo.useController Demo.p10 (heap Demo.w1) = (Normal (Demo.bound Demo.w1), heap Demo.w1)).
  { eapply demo_bound; reflexivity. }
  split; [exact Hprev|].
  exact (output_referentially_stable Demo.useController Demo.w1 Demo.p10 Demo.p10
           (Demo.bound Demo.w0) (Demo.bound Demo.w1) 2%positive (heap Demo.w1)
           Hprev Huc eq_refl eq_refl eq_refl).
Defined.

(** C5 as stated fails: two consecutive renders with the same value and the
    same disabled flag, the second with a new render function: the second
    render returns another element than the first. *)
Lemma output_changes_with_render_prop :
  Demo.result Demo.s0 = Normal 2%positive /\
  hook Demo.w1 = hook (snd Demo.s0) /\
  value (field (Demo.bound Demo.w1)) = value (field (Demo.bound Demo.w0)) /\
  disabled (field (Demo.bound Demo.w1)) = disabled (field (Demo.bound Demo.w0)) /\
  Demo.result Demo.s1' = Normal 3%positive /\
  Demo.result Demo.s1' <> Demo.result Demo.s0.
Proof.
  repeat (split; [reflexivity|]).
  vm_compute. discriminate.
Qed.

(** C6, witness: after the touched flag, a render function of another identity
    is called and its element is the output; the same function is not called
    and the element of the mount is returned. *)
Lemma render_identity_is_dependency_witness :
  previous_render Demo.useController Demo.w1 Demo.p10 (Demo.bound Demo.w0) 2%positive /\
  fn_id (render Demo.p11) <> fn_id (render Demo.p10) /\
  Demo.calls (OptimizedController Demo.useController Demo.p11 Demo.w1) =
    [(11%positive, VString "", Some false)] /\
  Demo.result (OptimizedController Demo.useController Demo.p11 Demo.w1) = Normal 3%positive /\
  OptimizedController Demo.useController Demo.p10 Demo.w1 = ([], Normal 2%positive, Demo.w1).
Proof.
  assert (Hprev : previous_render Demo.useController Demo.w1 Demo.p10 (Demo.bound Demo.w0) 2%positive).
  { eapply (demo_previous _ Demo.w0); [exact I | reflexivity | reflexivity | reflexivity]. }
  assert (U10 : Demo.useController Demo.p10 (heap Demo.w1) = (Normal (Demo.bound Demo.w1), heap Demo.w1)).
  { eapply demo_bound; reflexivity. }
  assert (U11 : Demo.useController Demo.p11 (heap Demo.w1) = (Normal (Demo.bound Demo.w1), heap Demo.w1)).
  { eapply demo_bound; reflexivity. }
  assert (Hne : fn_id (render Demo.p11) <> fn_id (render Demo.p10)) by discriminate.
  pose proof (proj1 (render_identity_is_dependency Demo.useController Demo.w1 Demo.p10 Demo.p11
                       (Demo.bound Demo.w0) (Demo.bound Demo.w1) 2%positive (heap Demo.w1)
                       Hprev U11 eq_refl eq_refl) Hne) as Hnew.
  pose proof (proj2 (render_identity_is_dependency Demo.useController Demo.w1 Demo.p10 Demo.p10
                       (Demo.bound Demo.w0) (Demo.bound Demo.w1) 2%positive (heap Demo.w1)
                       Hprev U10 eq_refl eq_refl) eq_refl) as Hsame.
  refine (conj Hprev (conj Hne (conj _ (conj _ Hsame)))).
  - rewrite Hnew. reflexivity.
  - rewrite Hnew. reflexivity.
Defined.

(** C7, witness: at the first render the render function is applied to the
    provider's field: the element the pass returns holds the name ["test"],
    the value [""] and the flag false, which the provider's field has. *)
Lemma render_receives_field_view_witness :
  In {| call_fn := render Demo.p10; call_arg := field (Demo.bound Demo.w0) |}
     (fst (fst (OptimizedController Demo.useController Demo.p10 Demo.w0))) /\
  (exists (ctl : UseControllerReturn) (h : Heap),
    Demo.useController Demo.p10 (heap Demo.w0) = (Normal ctl, h) /\
    render Demo.p10 = render Demo.p10 /\
    OptimizedController Demo.useController Demo.p10 Demo.w0 =
    match fn_call (render Demo.p10) (field (Demo.bound Demo.w0)) h with
    | (Normal node, h') =>
        ([{| call_fn := render Demo.p10; call_arg := field (Demo.bound Demo.w0) |}], Normal node,
         {| hook := Some (node, memoDeps (render Demo.p10) (field ctl)); heap := h' |})
    | (Throw e, h') =>
        ([{| call_fn := render Demo.p10; call_arg := field (Demo.bound Demo.w0) |}], Throw e,
         {| hook := hook Demo.w0; heap := h' |})
    end /\
    field (Demo.bound Demo.w0) = field ctl /\
    onChange (field (Demo.bound Demo.w0)) = onChange (field ctl) /\
    onBlur (field (Demo.bound Demo.w0)) = onBlur (field ctl) /\
    VString "" = value (field ctl) /\
    Some false = disabled (field ctl) /\
    (forall b : bool, disabled (field ctl) = Some b -> Some false = Some b) /\
    "test" = name (field ctl) /\
    ref (field (Demo.bound Demo.w0)) = ref (field ctl)) /\
  snd (fst (OptimizedController Demo.useController Demo.p10 Demo.w0)) = Normal 2%positive /\
  Demo.getProp 2%positive "name"
    (heap (snd (OptimizedController Demo.useController Demo.p10 Demo.w0))) = VString "test" /\
  Demo.getProp 2%positive "disabled"
    (heap (snd (OptimizedController Demo.useController Demo.p10 Demo.w0))) = VBool false.
Proof.
  assert (Hin : In {| call_fn := render Demo.p10; call_arg := field (Demo.bound Demo.w0) |}
                   (fst (fst (OptimizedController Demo.useController Demo.p10 Demo.w0)))).
  { left. reflexivity. }
  refine (conj Hin (conj _ (conj eq_refl (conj eq_refl eq_refl)))).
  exact (render_receives_field_view Demo.useController Demo.p10 Demo.w0 _ Hin).
Defined.

(** C7 as stated fails: the provider's field has no disabled flag (it is
    optional there); the render function is called with that field, and the
    view it gets has no disabled flag: the element it builds holds
    [undefined] for it. *)
Lemma view_without_disabled_flag :
  Demo.useController Demo.p10 (heap Demo.wBare) = (Normal (Demo.bound Demo.wBare), heap Demo.wBare) /\
  fst (fst (OptimizedController Demo.useController Demo.p10 Demo.wBare)) =
    [{| call_fn := render Demo.p10; call_arg := field (Demo.bound Demo.wBare) |}] /\
  (forall c : Call,
     In c (fst (fst (OptimizedController Demo.useController Demo.p10 Demo.wBare))) ->
     disabled (call_arg c) = None) /\
  ~ (forall c : Call,
       In c (fst (fst (OptimizedController Demo.useController Demo.p10 Demo.wBare))) ->
       exists b : bool, disabled (call_arg c) = Some b) /\
  snd (fst (OptimizedController Demo.useController Demo.p10 Demo.wBare)) = Normal 2%positive /\
  Demo.getProp 2%positive "disabled"
    (heap (snd (OptimizedController Demo.useController Demo.p10 Demo.wBare))) = VUndefined.
Proof.
  assert (Ht : fst (fst (OptimizedController Demo.useController Demo.p10 Demo.wBare)) =
               [{| call_fn := render Demo.p10; call_arg := field (Demo.bound Demo.wBare) |}])
    by reflexivity.
  split; [eapply demo_bound; reflexivity|].
  split; [exact Ht|].
  split.
  { intros c Hin. rewrite Ht in Hin. destruct Hin as [<- | []]. reflexivity. }
  split; [|split; reflexivity].
  intros Hall.
  destruct (Hall {| call_fn := render Demo.p10; call_arg := field (Demo.bound Demo.wBare) |})
    as [b Hb].
  - rewrite Ht. by left.
  - discriminate Hb.
Qed.

(** C8, witness: the handler the render function got at the mount is the
    provider's; calling it with ["abc"] writes ["abc"] as the form's value. *)
Lemma onChange_passed_through_witness :
  In {| call_fn := render Demo.p10; call_arg := field (Demo.bound Demo.w0) |}
     (fst (fst (OptimizedController Demo.useController Demo.p10 Demo.w0))) /\
  (exists (ctl : UseControllerReturn) (h : Heap),
    Demo.useController Demo.p10 (heap Demo.w0) = (Normal ctl, h) /\
    onChange (field (Demo.bound Demo.w0)) = onChange (field ctl) /\
    (forall (v : JsValue) (h1 : Heap),
       cb_call (onChange (field (Demo.bound Demo.w0))) v h1 = cb_call (onChange (field ctl)) v h1) /\
    heap (snd (OptimizedController Demo.useController Demo.p10 Demo.w0)) =
      snd (fn_call (render Demo.p10) (field ctl) h)) /\
  Demo.getProp Demo.form "value"
    (snd (cb_call (onChange (field (Demo.bound Demo.w0))) (VString "abc") Demo.h0)) = VString "abc".
Proof.
  assert (Hin : In {| call_fn := render Demo.p10; call_arg := field (Demo.bound Demo.w0) |}
                   (fst (fst (OptimizedController Demo.useController Demo.p10 Demo.w0)))).
  { left. reflexivity. }
  split; [exact Hin|]. split; [|reflexivity].
  exact (onChange_passed_through Demo.useController Demo.p10 Demo.w0 _ Hin).
Defined.

(** C9, witness: a provider that reports the field invalid, touched and dirty,
    with another form state, gives the pass of the plain provider. *)
Lemma fieldState_formState_not_observed_witness :
  Demo.useController Demo.p10 (heap Demo.w1) = (Normal (Demo.bound Demo.w1), heap Demo.w1) /\
  fieldState (Demo.bound Demo.w1) <>
    {| invalid := true; isTouched := true; isDirty := true; isValidating := true;
       error := Some "Required" |} /\
  OptimizedController Demo.useControllerInvalid Demo.p10 Demo.w1 =
    OptimizedController Demo.useController Demo.p10 Demo.w1.
Proof.
  assert (Huc : Demo.useController Demo.p10 (heap Demo.w1) = (Normal (Demo.bound Demo.w1), heap Demo.w1)).
  { eapply demo_bound; reflexivity. }
  split; [exact Huc|]. split; [discriminate|].
  refine (proj1 (fieldState_formState_not_observed Demo.useController Demo.useControllerInvalid
                   Demo.p10 Demo.w1 (Demo.bound Demo.w1) _ (heap Demo.w1) Huc _ _)).
  - reflexivity.
  - reflexivity.
Defined.

(** C10, witness: without a form the binding call throws, and the pass throws
    the same exception with no call; with a form and a render function that
    throws, the exception of the pass is the render function's. *)
Lemma provider_failure_propagates_witness :
  Demo.useController Demo.orphan (heap Demo.w1) = (Throw (VString "control is missing"), heap Demo.w1) /\
  OptimizedController Demo.useController Demo.orphan Demo.w1 =
    ([], Throw (VString "control is missing"), Demo.w1) /\
  snd (fst (OptimizedController Demo.useController Demo.p12 Demo.w1)) = Throw (VString "render failed") /\
  (Demo.useController Demo.p12 (heap Demo.w1) = (Throw (VString "render failed"), heap Demo.w1) \/
   exists (ctl : UseControllerReturn) (h : Heap),
     Demo.useController Demo.p12 (heap Demo.w1) = (Normal ctl, h) /\
     fn_call (render Demo.p12) (field ctl) h = (Throw (VString "render failed"), heap Demo.w1)).
Proof.
  assert (Huc : Demo.useController Demo.orphan (heap Demo.w1) =
                (Throw (VString "control is missing"), heap Demo.w1)) by reflexivity.
  split; [exact Huc|].
  split; [exact (proj1 (provider_failure_propagates Demo.useController Demo.orphan Demo.w1) _ _ Huc)|].
  split; [reflexivity|].
  exact (proj2 (proj2 (provider_failure_propagates Demo.useController Demo.p12 Demo.w1)
                  [{| call_fn := render Demo.p12; call_arg := field (Demo.bound Demo.w1) |}]
                  (VString "render failed") Demo.w1 eq_refl)).
Defined.

(** * Further properties of the component *)

Section Further.

Variable useController : OptimizedControllerProps -> JS UseControllerReturn.

Local Abbreviation OC := (OptimizedController useController).

(** X1: a pass calls the render function at most once. *)
Theorem pass_at_most_one_call (p : OptimizedControllerProps) (w : World) :
  length (fst (fst (OC p w))) <= 1.
Proof.
  destruct (useController p (heap w)) as [[ctl|e] h] eqn:Huc.
  - destruct (pass_cases _ _ _ _ _ Huc) as [[pv Hoc] | Hoc]; rewrite Hoc.
    + simpl. lia.
    + destruct (fn_call (render p) (field ctl) h) as [[node|e] h']; simpl; lia.
  - rewrite (pass_throw _ _ _ _ _ Huc). simpl. lia.
Qed.

(** X2: the memo cell stays well formed through every pass; after a pass that
    returns, it holds the element returned with the dependency array of that
    pass; a pass that throws leaves it as it was. *)
Theorem memo_cell_invariant (p : OptimizedControllerProps) (w w' : World)
    (t : Trace) (res : Completion ReactElement) :
  hook_wf (hook w) ->
  OC p w = (t, res, w') ->
  hook_wf (hook w') /\
  (forall node : ReactElement, res = Normal node ->
     exists (ctl : UseControllerReturn) (h : Heap),
       useController p (heap w) = (Normal ctl, h) /\
       hook w' = Some (node, memoDeps (render p) (field ctl))) /\
  (forall e : JsValue, res = Throw e -> hook w' = hook w).
Proof.
  intros Hwf Hoc.
  destruct (useController p (heap w)) as [[ctl|e] h] eqn:Huc.
  - assert (Hcell : match res with
                    | Normal node => hook w' = Some (node, memoDeps (render p) (field ctl))
                    | Throw _ => hook w' = hook w
                    end).
    { destruct (hook w) as [[pv pd]|] eqn:Hw.
      - destruct (areHookInputsEqual (memoDeps (render p) (field ctl)) pd) eqn:Heq.
        + rewrite (pass_hit _ _ _ _ _ _ _ Huc Hw Heq) in Hoc.
          inversion Hoc; subst; clear Hoc. cbn [hook]. rewrite Hw.
          apply areHookInputsEqual_eq in Heq; [by rewrite Heq|].
          rewrite memoDeps_length. symmetry. exact Hwf.
        + rewrite (pass_miss _ _ _ _ _ Huc) in Hoc by (by rewrite Hw).
          destruct (fn_call (render p) (field ctl) h) as [[node|e] h'];
            inversion Hoc; subst; cbn [hook]; by rewrite ?Hw.
      - rewrite (pass_miss _ _ _ _ _ Huc) in Hoc by (by rewrite Hw).
        destruct (fn_call (render p) (field ctl) h) as [[node|e] h'];
          inversion Hoc; subst; cbn [hook]; by rewrite ?Hw. }
    split; [|split].
    + destruct res; rewrite Hcell; [reflexivity | exact Hwf].
    + intros node ->. by exists ctl, h.
    + by intros e ->.
  - rewrite (pass_throw _ _ _ _ _ Huc) in Hoc. inversion Hoc; subst; clear Hoc.
    split; [exact Hwf|]. split; [discriminate | reflexivity].
Qed.

(** X3: on the first render, with the memo cell empty and the binding call
    returning, the render function is called exactly once, with the provider's
    field, whatever the value; the element it returns is the output and is
    memoised with the triple, and if it throws nothing is memoised. *)
Theorem first_render_calls_once (p : OptimizedControllerProps) (w : World)
    (ctl : UseControllerReturn) (h : Heap) :
  hook w = None ->
  useController p (heap w) = (Normal ctl, h) ->
  fst (fst (OC p w)) = [{| call_fn := render p; call_arg := field ctl |}] /\
  (forall (node : ReactElement) (h' : Heap),
     fn_call (render p) (field ctl) h = (Normal node, h') ->
     OC p w = ([{| call_fn := render p; call_arg := field ctl |}], Normal node,
               {| hook := Some (node, [value (field ctl); optBool (disabled (field ctl));
                                       VObject (fn_id (render p))]);
                  heap := h' |})) /\
  (forall (e : JsValue) (h' : Heap),
     fn_call (render p) (field ctl) h = (Throw e, h') ->
     OC p w = ([{| call_fn := render p; call_arg := field ctl |}], Throw e,
               {| hook := None; heap := h' |})).
Proof.
  intros Hw Huc.
  assert (Hoc := pass_miss _ _ _ _ _ Huc). rewrite Hw in Hoc. specialize (Hoc I).
  rewrite Hoc. split; [|split].
  - by destruct (fn_call (render p) (field ctl) h) as [[node|e] h'].
  - by intros node h' ->.
  - by intros e h' ->.
Qed.

(** X4: over a run in which every binding call returns and the render props
    return elements, the render function is called exactly at the frames
    whose triple [[value, disabled, render]] is not the triple of the frame
    before (the memoised triple, for the first frame), in the order of the
    frames, each time with that frame's render prop and field; and each
    render returns the element the render prop returned on that field at the
    last such frame. *)
Theorem run_calls_on_changes (c : MemoCell)
    (frames : list (OptimizedControllerProps * Heap))
    (xs : list (RenderFn * ControllerRenderProps * ReactElement)) :
  hook_wf c ->
  Forall2 (yields useController) frames xs ->
  run useController c frames = changes (option_map snd c) (map fst xs) /\
  outputs useController c frames = map Normal (shown c xs).
Proof.
  intros Hwf Hall. revert c Hwf.
  induction Hall as [|[p h] [[r f] node] frames xs (ctl & h' & h'' & Huc & Hx & Hcall) _ IH];
    intros c Hwf; [by split|].
  simpl in Huc, Hx, Hcall. inversion Hx; subst r f; clear Hx.
  cbn [run outputs changes shown map fst].
  destruct (IH (Some (node, memoDeps (render p) (field ctl))) eq_refl) as [IHrun IHout].
  assert (Hmiss : OC p {| hook := c; heap := h |} =
                  ([{| call_fn := render p; call_arg := field ctl |}], Normal node,
                   {| hook := Some (node, memoDeps (render p) (field ctl)); heap := h'' |}) ->
                  option_map snd c <> Some (memoDeps (render p) (field ctl)) ->
                  match OC p {| hook := c; heap := h |} with
                  | (t, Normal _, w') => t ++ run useController (hook w') frames
                  | (t, Throw _, _) => t
                  end =
                  (if decide (option_map snd c = Some (memoDeps (render p) (field ctl))) then []
                   else [{| call_fn := render p; call_arg := field ctl |}])
                  ++ changes (Some (memoDeps (render p) (field ctl))) (map fst xs) /\
                  match OC p {| hook := c; heap := h |} with
                  | (_, Normal n, w') => Normal n :: outputs useController (hook w') frames
                  | (_, Throw e, _) => [Throw e]
                  end =
                  Normal node :: map Normal (shown (Some (node, memoDeps (render p) (field ctl))) xs)).
  { intros -> Hne. rewrite decide_False by done. cbn [hook].
    by rewrite IHrun, IHout. }
  destruct c as [[pv pd]|].
  - destruct (areHookInputsEqual (memoDeps (render p) (field ctl)) pd) eqn:Heq.
    + rewrite (pass_hit useController p {| hook := Some (pv, pd); heap := h |}
                 ctl h' pv pd Huc eq_refl Heq).
      apply areHookInputsEqual_eq in Heq; [|by rewrite memoDeps_length].
      subst pd. cbn [hook option_map snd]. rewrite !decide_True by done.
      destruct (IH (Some (pv, memoDeps (render p) (field ctl))) eq_refl) as [IHrun' IHout'].
      cbn [map]. by rewrite IHrun', IHout'.
    + assert (Hne : pd <> memoDeps (render p) (field ctl)).
      { intros ->.
        assert (areHookInputsEqual (memoDeps (render p) (field ctl))
                  (memoDeps (render p) (field ctl)) = true) as Hrefl
          by (by apply areHookInputsEqual_eq).
        congruence. }
      rewrite (decide_False (P := pd = memoDeps (render p) (field ctl))) by done.
      cbn [map]. apply Hmiss.
      * rewrite (pass_miss useController p {| hook := Some (pv, pd); heap := h |} ctl h' Huc Heq).
        by rewrite Hcall.
      * cbn [option_map snd]. congruence.
  - cbn [map]. apply Hmiss; [|discriminate].
    rewrite (pass_miss useController p {| hook := None; heap := h |} ctl h' Huc I).
    by rewrite Hcall.
Qed.

(** X5: whatever the frames do, the calls of a run are calls the frames
    offered, in the order of the frames: the render function is never called
    out of order, never twice for one frame, and never with a field the
    provider did not return in that frame. *)
Theorem run_calls_in_order (c : MemoCell)
    (frames : list (OptimizedControllerProps * Heap)) :
  sublist (run useController c frames) (offered useController frames).
Proof.
  revert c. induction frames as [|[p h] rest IH]; intros c; [constructor|].
  assert (Hoff : offered useController ((p, h) :: rest) =
                 match useController p h with
                 | (Normal ctl, _) =>
                     {| call_fn := render p; call_arg := field ctl |} :: offered useController rest
                 | (Throw _, _) => offered useController rest
                 end).
  { unfold offered. simpl. by destruct (useController p h) as [[ctl|e] h']. }
  rewrite Hoff. clear Hoff. cbn [run].
  destruct (useController p h) as [[ctl|e] h'] eqn:Huc.
  - destruct (pass_cases useController p {| hook := c; heap := h |} ctl h' Huc)
      as [[pv Hoc] | Hoc]; rewrite Hoc.
    + cbn [hook app]. apply sublist_cons, IH.
    + destruct (fn_call (render p) (field ctl) h') as [[node|e] h''].
      * cbn [hook app]. apply sublist_skip, IH.
      * apply sublist_skip, sublist_nil_l.
  - rewrite (pass_throw useController p {| hook := c; heap := h |} e h' Huc).
    apply sublist_nil_l.
Qed.

(** X6: the other members of the field are not compared.  After a first
    render that called the render function with field [f0] and got [node0],
    a render whose field has the same value and disabled flag, with the same
    render prop, calls nothing and returns [node0], the element built from
    [f0]: whatever name, change handler, blur handler and ref the new field
    carries. *)
Theorem field_handlers_not_compared
    (p0 p : OptimizedControllerProps) (w0 w : World)
    (ctl0 ctl : UseControllerReturn) (h0 h0' h : Heap) (node0 : ReactElement) :
  hook w0 = None ->
  useController p0 (heap w0) = (Normal ctl0, h0) ->
  fn_call (render p0) (field ctl0) h0 = (Normal node0, h0') ->
  hook w = hook (snd (OC p0 w0)) ->
  useController p (heap w) = (Normal ctl, h) ->
  value (field ctl) = value (field ctl0) ->
  disabled (field ctl) = disabled (field ctl0) ->
  fn_id (render p) = fn_id (render p0) ->
  fst (fst (OC p0 w0)) = [{| call_fn := render p0; call_arg := field ctl0 |}] /\
  snd (fst (OC p0 w0)) = Normal node0 /\
  OC p w = ([], Normal node0, {| hook := hook w; heap := h |}).
Proof.
  intros Hw0 Huc0 Hcall Hw Huc Hv Hd Hr.
  assert (Hoc0 := pass_miss _ _ _ _ _ Huc0). rewrite Hw0, Hcall in Hoc0. specialize (Hoc0 I).
  rewrite Hoc0 in Hw |- *. cbn [hook fst snd] in *.
  repeat split.
  apply (pass_hit _ _ _ _ _ _ _ Huc Hw).
  rewrite memoDeps_equal, Hv, Hd, Hr, !Object_is_refl, Pos.eqb_refl. reflexivity.
Qed.

End Further.

(** X2, witness: the render after ["abc"] was typed starts from a well-formed
    cell and leaves the new element with the new triple in it. *)
Lemma memo_cell_invariant_witness :
  hook_wf (hook Demo.w2) /\
  OptimizedController Demo.useController Demo.p10 Demo.w2 =
    (fst (fst Demo.s2), Normal 3%positive, snd Demo.s2) /\
  hook_wf (hook (snd Demo.s2)) /\
  (forall node : ReactElement, Normal 3%positive = Normal node ->
     exists (ctl : UseControllerReturn) (h : Heap),
       Demo.useController Demo.p10 (heap Demo.w2) = (Normal ctl, h) /\
       hook (snd Demo.s2) = Some (node, memoDeps (render Demo.p10) (field ctl))) /\
  (forall e : JsValue, Normal 3%positive = Throw e -> hook (snd Demo.s2) = hook Demo.w2).
Proof.
  assert (Hwf : hook_wf (hook Demo.w2)) by reflexivity.
  assert (Hoc : OptimizedController Demo.useController Demo.p10 Demo.w2 =
                (fst (fst Demo.s2), Normal 3%positive, snd Demo.s2)) by reflexivity.
  exact (conj Hwf (conj Hoc
           (memo_cell_invariant Demo.useController Demo.p10 Demo.w2 (snd Demo.s2)
              (fst (fst Demo.s2)) (Normal 3%positive) Hwf Hoc))).
Defined.

(** X3, witness: the first render of the demo form calls the render function
    once, with the field of value [""]. *)
Lemma first_render_calls_once_witness :
  hook Demo.w0 = None /\
  Demo.useController Demo.p10 (heap Demo.w0) = (Normal (Demo.bound Demo.w0), heap Demo.w0) /\
  fst (fst (OptimizedController Demo.useController Demo.p10 Demo.w0)) =
    [{| call_fn := render Demo.p10; call_arg := field (Demo.bound Demo.w0) |}] /\
  value (field (Demo.bound Demo.w0)) = VString "".
Proof.
  assert (Huc : Demo.useController Demo.p10 (heap Demo.w0) =
                (Normal (Demo.bound Demo.w0), heap Demo.w0)).
  { eapply demo_bound; reflexivity. }
  refine (conj eq_refl (conj Huc (conj _ eq_refl))).
  exact (proj1 (first_render_calls_once Demo.useController Demo.p10 Demo.w0
                  (Demo.bound Demo.w0) (heap Demo.w0) eq_refl Huc)).
Defined.

(** X4, witness: first render, touched, typed, new render prop, disabled: the
    render function is called at the first, third, fourth and fifth frame,
    and the renders return elements 2, 2, 3, 4 and 5. *)
Lemma run_calls_on_changes_witness :
  hook_wf None /\
  Forall2 (yields Demo.useController) Demo.story (Demo.told Demo.story) /\
  (run Demo.useController None Demo.story = changes None (map fst (Demo.told Demo.story)) /\
   outputs Demo.useController None Demo.story = map Normal (shown None (Demo.told Demo.story))) /\
  map (fun c => (fn_id (call_fn c), value (call_arg c), disabled (call_arg c)))
      (changes None (map fst (Demo.told Demo.story))) =
    [(10%positive, VString "", Some false); (10%positive, VString "abc", Some false);
     (11%positive, VString "abc", Some false); (10%positive, VString "abc", Some true)] /\
  shown None (Demo.told Demo.story) = [2; 2; 3; 4; 5]%positive.
Proof.
  assert (Hall : Forall2 (yields Demo.useController) Demo.story (Demo.told Demo.story)).
  { repeat constructor; eexists _, _, _; (split; [reflexivity|]); split; reflexivity. }
  refine (conj I (conj Hall (conj _ (conj _ _)))).
  - exact (run_calls_on_changes Demo.useController None Demo.story (Demo.told Demo.story) I Hall).
  - vm_compute. reflexivity.
  - vm_compute. reflexivity.
Defined.

(** X6, witness: the form is bound again under the name ["other"] with the
    same value and flag: nothing is called, and the element returned is the
    one built for the name ["test"]. *)
Lemma field_handlers_not_compared_witness :
  name (field (Demo.binding Demo.form "other" (heap Demo.w1))) <> name (field (Demo.bound Demo.w0)) /\
  Demo.getProp 2%positive "name" (heap Demo.w1) = VString "test" /\
  fst (fst (OptimizedController Demo.useController Demo.p10 Demo.w0)) =
    [{| call_fn := render Demo.p10; call_arg := field (Demo.bound Demo.w0) |}] /\
  snd (fst (OptimizedController Demo.useController Demo.p10 Demo.w0)) = Normal 2%positive /\
  OptimizedController Demo.useController Demo.pOther Demo.w1 = ([], Normal 2%positive, Demo.w1).
Proof.
  split; [discriminate|]. split; [reflexivity|].
  eapply (field_handlers_not_compared Demo.useController Demo.p10 Demo.pOther Demo.w0 Demo.w1
            (Demo.bound Demo.w0) (Demo.binding Demo.form "other" (heap Demo.w1))
            (heap Demo.w0) _ (heap Demo.w1) 2%positive); reflexivity.
Defined.
